(** * SocketServer: the meeting registries and their event handlers

    A shallow embedding of [socketserver.py].  The two module-level
    dictionaries [meetings] and [active_users] are finite maps, the
    handlers are programs in a small monad that threads the two
    dictionaries, records every call made on the Socket.IO server object
    [sio] and stops at the first Python exception. *)

From stdpp Require Import base option list strings gmap fin_maps.

Local Open Scope string_scope.

(** ** Python values used as keys and payload fields

    A handler receives its connection identifier [sid] from the transport
    (always a string) and a dictionary [data] that it only reads with
    [data.get(k)].  The result of [data.get(k)] is [None] when the field is
    absent; such a value is then used as a dictionary key, a list element
    or a room name exactly like a string would be.  [pykey] is that type:
    [None] is Python's [None], [Some s] the string [s].  Fields that are
    present hold strings; the [print] calls of the handlers write to the
    console only and are left out. *)

Abbreviation pykey := (option string).

Abbreviation data := (gmap string string).

Definition data_get (d : data) (k : string) : pykey := d !! k.

(** ** The two registries *)

Inductive role_t : Type := Host | Participant.

Global Instance role_t_eq_dec : EqDecision role_t.
Proof. solve_decision. Defined.

(** An entry of [active_users]:
    [{"user_id": ..., "meeting_code": ..., "role": "host"|"participant"}]. *)
Record user : Type := User {
  user_id : pykey;
  meeting_code : pykey;
  role : role_t
}.

(** An entry of [meetings]: [{"host_sid": ..., "participants": [...]}]. *)
Record meeting : Type := Meeting {
  host_sid : pykey;
  participants : list pykey
}.

Global Instance user_eq_dec : EqDecision user.
Proof. solve_decision. Defined.

Global Instance meeting_eq_dec : EqDecision meeting.
Proof. solve_decision. Defined.

Record world : Type := World {
  meetings : gmap pykey meeting;
  active_users : gmap pykey user
}.

Definition empty_world : world := World ∅ ∅.

(** ** Calls on the Socket.IO server

    [sio.emit(event, payload, to=...)] addresses one connection,
    [sio.emit(event, payload, room=..., skip_sid=...)] addresses a room.
    Which connections are in a room is the transport's business; the
    handlers only call [enter_room] and [leave_room]. *)

Inductive target : Type :=
  | To (sid : pykey)
  | Room (room : pykey) (skip_sid : pykey).

Definition fields : Type := option (list (string * pykey)).

Inductive effect : Type :=
  | Emit (name : string) (payload : fields) (tgt : target)
  | EnterRoom (sid : pykey) (room : pykey)
  | LeaveRoom (sid : pykey) (room : pykey).

Global Instance target_eq_dec : EqDecision target.
Proof. solve_decision. Defined.

Global Instance effect_eq_dec : EqDecision effect.
Proof. solve_decision. Defined.

(** ** The handler monad *)

Inductive exn : Type :=
  | KeyError (k : pykey)
  | ValueError.

Inductive outcome (A : Type) : Type :=
  | Returned (a : A)
  | Raised (e : exn).
Arguments Returned {A} a.
Arguments Raised {A} e.

Record run (A : Type) : Type := Run {
  out : outcome A;
  final : world;
  emitted : list effect
}.
Arguments Run {A} out final emitted.
Arguments out {A} r.
Arguments final {A} r.
Arguments emitted {A} r.

Definition M (A : Type) : Type := world → run A.

Global Instance M_ret : MRet M := λ A a w, Run (Returned a) w [].

Global Instance M_bind : MBind M := λ A B k m w,
  match m w with
  | Run (Returned a) w1 l1 =>
      match k a w1 with
      | Run o w2 l2 => Run o w2 (l1 ++ l2)
      end
  | Run (Raised e) w1 l1 => Run (Raised e) w1 l1
  end.

Definition raise {A} (e : exn) : M A := λ w, Run (Raised e) w [].

Definition tell (e : effect) : M unit := λ w, Run (Returned ()) w [e].

(** [sio.emit], [sio.enter_room], [sio.leave_room] *)
Definition emit (name : string) (payload : fields) (tgt : target) : M unit :=
  tell (Emit name payload tgt).
Definition enter_room (sid room : pykey) : M unit := tell (EnterRoom sid room).
Definition leave_room (sid room : pykey) : M unit := tell (LeaveRoom sid room).

(** [active_users.get(k)] *)
Definition active_users_get (k : pykey) : M (option user) :=
  λ w, Run (Returned (active_users w !! k)) w [].

(** [active_users[k] = u] *)
Definition active_users_set (k : pykey) (u : user) : M unit :=
  λ w, Run (Returned ()) (World (meetings w) (<[k := u]> (active_users w))) [].

(** [del active_users[k]] *)
Definition active_users_del (k : pykey) : M unit :=
  λ w, match active_users w !! k with
       | Some _ => Run (Returned ()) (World (meetings w) (delete k (active_users w))) []
       | None => Run (Raised (KeyError k)) w []
       end.

(** [k in meetings] *)
Definition meetings_contains (k : pykey) : M bool :=
  λ w, Run (Returned (bool_decide (is_Some (meetings w !! k)))) w [].

(** [meetings[k]] *)
Definition meetings_getitem (k : pykey) : M meeting :=
  λ w, match meetings w !! k with
       | Some m => Run (Returned m) w []
       | None => Run (Raised (KeyError k)) w []
       end.

(** [meetings[k] = m] *)
Definition meetings_set (k : pykey) (m : meeting) : M unit :=
  λ w, Run (Returned ()) (World (<[k := m]> (meetings w)) (active_users w)) [].

(** [del meetings[k]] *)
Definition meetings_del (k : pykey) : M unit :=
  λ w, match meetings w !! k with
       | Some _ => Run (Returned ()) (World (delete k (meetings w)) (active_users w)) []
       | None => Run (Raised (KeyError k)) w []
       end.

(** [l.remove(x)] on a Python list: drops the first occurrence. *)
Fixpoint remove_first (x : pykey) (l : list pykey) : list pykey :=
  match l with
  | [] => []
  | y :: l' => if decide (x = y) then l' else y :: remove_first x l'
  end.

(** [meetings[k]["participants"].remove(x)] *)
Definition participants_remove (k x : pykey) : M unit :=
  m ← meetings_getitem k;
  if decide (x ∈ participants m)
  then meetings_set k (Meeting (host_sid m) (remove_first x (participants m)))
  else raise ValueError.

(** [meetings[k]["participants"].append(x)] *)
Definition participants_append (k x : pykey) : M unit :=
  m ← meetings_getitem k;
  meetings_set k (Meeting (host_sid m) (participants m ++ [x])).

(** ** The event handlers *)

Definition connect (sid : string) : M unit := mret ().

Definition disconnect (sid : string) : M unit :=
  user_data ← active_users_get (Some sid);
  match user_data with
  | Some u =>
      let meeting_code := meeting_code u in
      let role := role u in
      known ← meetings_contains meeting_code;
      (if known : bool then
         match role with
         | Host =>
             emit "meeting_ended" None (Room meeting_code None);;
             meetings_del meeting_code
         | _ =>
             m ← meetings_getitem meeting_code;
             (if decide (Some sid ∈ participants m)
              then participants_remove meeting_code (Some sid)
              else mret ());;
             emit "participant_left" (Some [("sid", Some sid)])
                  (Room meeting_code None)
         end
       else mret ());;
      active_users_del (Some sid)
  | None => mret ()
  end.

Definition start_meeting (sid : string) (d : data) : M unit :=
  let meeting_code := data_get d "meeting_code" in
  let user_id := data_get d "user_id" in
  meetings_set meeting_code (Meeting (Some sid) []);;
  active_users_set (Some sid) (User user_id meeting_code Host);;
  enter_room (Some sid) meeting_code;;
  emit "meeting_started"
       (Some [("status", Some "success"); ("meeting_code", meeting_code)])
       (To (Some sid)).

Definition request_join (sid : string) (d : data) : M unit :=
  let meeting_code := data_get d "meeting_code" in
  let user_info := data_get d "user_info" in
  known ← meetings_contains meeting_code;
  if negb known then
    emit "join_error" (Some [("message", Some "Invalid meeting code")])
         (To (Some sid))
  else
    m ← meetings_getitem meeting_code;
    let host_sid := host_sid m in
    emit "join_request_received"
         (Some [("sid", Some sid); ("user_info", user_info)]) (To host_sid);;
    emit "waiting_for_host"
         (Some [("message", Some "Waiting for host to let you in...")])
         (To (Some sid)).

Definition host_response (sid : string) (d : data) : M unit :=
  let requester_sid := data_get d "requester_sid" in
  let action := data_get d "action" in
  user_data ← active_users_get (Some sid);
  let meeting_code := from_option meeting_code None user_data in
  if decide (action = Some "allow") then
    enter_room requester_sid meeting_code;;
    participants_append meeting_code requester_sid;;
    active_users_set requester_sid
      (User (data_get d "user_id") meeting_code Participant);;
    emit "join_accepted" (Some [("meeting_code", meeting_code)])
         (To requester_sid);;
    emit "participant_joined" (Some [("sid", requester_sid)])
         (Room meeting_code requester_sid)
  else
    emit "join_denied"
         (Some [("message", Some "The host declined your request.")])
         (To requester_sid).

Definition kick_participant (sid : string) (d : data) : M unit :=
  let target_sid := data_get d "target_sid" in
  user_data ← active_users_get (Some sid);
  match user_data with
  | Some u =>
      if decide (role u = Host) then
        let meeting_code := meeting_code u in
        m ← meetings_getitem meeting_code;
        if decide (target_sid ∈ participants m) then
          emit "kicked_by_host" None (To target_sid);;
          leave_room target_sid meeting_code;;
          participants_remove meeting_code target_sid;;
          emit "participant_left" (Some [("sid", target_sid)])
               (Room meeting_code None)
        else mret ()
      else mret ()
  | None => mret ()
  end.

Definition end_meeting (sid : string) (d : data) : M unit :=
  user_data ← active_users_get (Some sid);
  match user_data with
  | Some u =>
      if decide (role u = Host) then
        let meeting_code := meeting_code u in
        emit "meeting_ended" None (Room meeting_code None);;
        known ← meetings_contains meeting_code;
        if known : bool then meetings_del meeting_code else mret ()
      else mret ()
  | None => mret ()
  end.

Definition webrtc_signal (sid : string) (d : data) : M unit :=
  let target_sid := data_get d "target_sid" in
  let payload := data_get d "payload" in
  emit "webrtc_signal"
       (Some [("sender_sid", Some sid); ("payload", payload)])
       (To target_sid).

(** ** Inbound events and runs of the server *)

Inductive event : Type :=
  | EvConnect (sid : string)
  | EvDisconnect (sid : string)
  | EvStartMeeting (sid : string) (d : data)
  | EvRequestJoin (sid : string) (d : data)
  | EvHostResponse (sid : string) (d : data)
  | EvKickParticipant (sid : string) (d : data)
  | EvEndMeeting (sid : string) (d : data)
  | EvWebrtcSignal (sid : string) (d : data).

Definition handle (e : event) : M unit :=
  match e with
  | EvConnect sid => connect sid
  | EvDisconnect sid => disconnect sid
  | EvStartMeeting sid d => start_meeting sid d
  | EvRequestJoin sid d => request_join sid d
  | EvHostResponse sid d => host_response sid d
  | EvKickParticipant sid d => kick_participant sid d
  | EvEndMeeting sid d => end_meeting sid d
  | EvWebrtcSignal sid d => webrtc_signal sid d
  end.

(** The registries after an event.  A handler that raises leaves behind
    whatever it had already written; the server keeps running. *)
Definition step (w : world) (e : event) : world := final (handle e w).

Definition exec_all (es : list event) (w : world) : world :=
  foldl step w es.

Definition reachable (w : world) : Prop :=
  ∃ es : list event, w = exec_all es empty_world.

(** A handler invocation is a no-op when it returns normally, leaves both
    registries as they were and makes no call on [sio]. *)
Definition no_op (r : run unit) (w : world) : Prop :=
  out r = Returned () ∧ final r = w ∧ emitted r = [].

(** The meeting code [host_response] works with:
    [active_users.get(sid, {}).get("meeting_code")]. *)
Definition sender_code (w : world) (sid : string) : pykey :=
  from_option meeting_code None (active_users w !! Some sid).

(** ** Properties of the registries *)

(** No meeting lists its own host among its participants. *)
Definition host_not_participant (w : world) : Prop :=
  map_Forall (λ _ m, host_sid m ∉ participants m) (meetings w).

(** No meeting lists a connection twice among its participants. *)
Definition participants_nodup (w : world) : Prop :=
  map_Forall (λ _ m, NoDup (participants m)) (meetings w).

Global Instance host_not_participant_dec w : Decision (host_not_participant w).
Proof. unfold host_not_participant. apply _. Defined.

Global Instance participants_nodup_dec w : Decision (participants_nodup w).
Proof. unfold participants_nodup. apply _. Defined.

(** The connections of a meeting: its host and its participants. *)
Definition members (m : meeting) : list pykey := host_sid m :: participants m.

(** Connection [x] is the host or a participant of the meeting stored
    under code [c]. *)
Definition member_of (ms : gmap pykey meeting) (x c : pykey) : Prop :=
  ∃ m, ms !! c = Some m ∧ x ∈ members m.

Definition member (w : world) (x c : pykey) : Prop :=
  member_of (meetings w) x c.

(** Every connection is a member of at most one meeting. *)
Definition one_meeting_each (w : world) : Prop :=
  ∀ x c1 c2, member w x c1 → member w x c2 → c1 = c2.

(** The same property, as a check over pairs of stored meetings: meetings
    under different codes share no member. *)
Definition disjoint_meetings (w : world) : Prop :=
  map_Forall (λ c1 m1,
    map_Forall (λ c2 m2,
      c1 = c2 ∨ Forall (λ x, x ∉ members m2) (members m1)) (meetings w))
    (meetings w).

Global Instance disjoint_meetings_dec w : Decision (disjoint_meetings w).
Proof. unfold disjoint_meetings. apply _. Defined.

(** The admission an event performs, if any: [host_response] with action
    ["allow"], sent by a connection whose registry entry names a stored
    meeting [m] under code [c], appends [requester_sid] to [m]'s
    participants. *)
Definition admitted (e : event) (w : world) : option (pykey * meeting * pykey) :=
  match e with
  | EvHostResponse sid d =>
      if decide (data_get d "action" = Some "allow") then
        m ← meetings w !! sender_code w sid;
        Some (sender_code w sid, m, data_get d "requester_sid")
      else None
  | _ => None
  end.

(** The connection an event makes a member of a meeting, with the code of
    that meeting: the caller of [start_meeting] becomes host, the requester
    of an admission becomes participant. *)
Definition joins (e : event) (w : world) : option (pykey * pykey) :=
  match e with
  | EvStartMeeting sid d => Some (Some sid, data_get d "meeting_code")
  | _ => '(c, _, x) ← admitted e w; Some (x, c)
  end.

(** ** Event sequences

    [along ok w es]: each event of [es], handled in turn from [w], meets
    the side condition [ok] in the state it is handled in. *)
Fixpoint along (ok : world → event → Prop) (w : world) (es : list event) : Prop :=
  match es with
  | [] => True
  | e :: es' => ok w e ∧ along ok (step w e) es'
  end.

(** The event admits nobody, or somebody other than the meeting's host. *)
Definition admits_other_than_host (w : world) (e : event) : Prop :=
  ∀ c m x, admitted e w = Some (c, m, x) → host_sid m ≠ x.

(** The event admits nobody, or somebody the meeting does not list yet. *)
Definition admits_unlisted (w : world) (e : event) : Prop :=
  ∀ c m x, admitted e w = Some (c, m, x) → x ∉ participants m.

(** The connection the event adds to a meeting, if any, is not a member of
    a meeting stored under another code. *)
Definition joins_unaffiliated (w : world) (e : event) : Prop :=
  ∀ x c, joins e w = Some (x, c) → ∀ c', member w x c' → c' = c.

(** How one event can change the Meeting Registry. *)
Inductive meetings_change (w : world) (e : event) : gmap pykey meeting → Prop :=
  | change_none : meetings_change w e (meetings w)
  | change_delete c : meetings_change w e (delete c (meetings w))
  | change_remove c m x :
      meetings w !! c = Some m →
      meetings_change w e
        (<[c := Meeting (host_sid m) (remove_first x (participants m))]>
           (meetings w))
  | change_start sid d :
      e = EvStartMeeting sid d →
      meetings_change w e
        (<[data_get d "meeting_code" := Meeting (Some sid) []]> (meetings w))
  | change_admit c m x :
      admitted e w = Some (c, m, x) →
      meetings_change w e
        (<[c := Meeting (host_sid m) (participants m ++ [x])]> (meetings w)).

(** ** Unguarded lookups

    [host_response] and [kick_participant] index [meetings[meeting_code]]
    without first testing [meeting_code in meetings].  This is the key they
    look up when it is missing. *)
Definition unguarded_lookup (e : event) (w : world) : option pykey :=
  match e with
  | EvHostResponse sid d =>
      if decide (data_get d "action" = Some "allow") then
        match meetings w !! sender_code w sid with
        | Some _ => None
        | None => Some (sender_code w sid)
        end
      else None
  | EvKickParticipant sid d =>
      u ← active_users w !! Some sid;
      if decide (role u = Host) then
        match meetings w !! meeting_code u with
        | Some _ => None
        | None => Some (meeting_code u)
        end
      else None
  | _ => None
  end.

(** ** What one event can write

    The key of [active_users] that the handler of an event assigns or
    deletes, if any: [disconnect] and [start_meeting] work on the caller's
    own key, an allowed [host_response] on [requester_sid]. *)
Definition written_user (e : event) : option pykey :=
  match e with
  | EvDisconnect sid => Some (Some sid)
  | EvStartMeeting sid _ => Some (Some sid)
  | EvHostResponse _ d =>
      if decide (data_get d "action" = Some "allow")
      then Some (data_get d "requester_sid") else None
  | _ => None
  end.

(** The code of [meetings] that the handler of an event assigns, updates or
    deletes, if any, read in the state the event is handled in. *)
Definition written_meeting (e : event) (w : world) : option pykey :=
  match e with
  | EvDisconnect sid => meeting_code <$> active_users w !! Some sid
  | EvStartMeeting _ d => Some (data_get d "meeting_code")
  | EvHostResponse sid d =>
      if decide (data_get d "action" = Some "allow")
      then Some (sender_code w sid) else None
  | EvKickParticipant sid _ => meeting_code <$> active_users w !! Some sid
  | EvEndMeeting sid _ => meeting_code <$> active_users w !! Some sid
  | _ => None
  end.

(** Every stored meeting has a connection identifier as host, never
    Python's [None]. *)
Definition hosts_connected (w : world) : Prop :=
  map_Forall (λ _ m, is_Some (host_sid m)) (meetings w).

(** ** Concrete payloads and the scenarios of the specification *)

Definition mk_data (l : list (string * string)) : data := list_to_map l.

(** Scenario B: host H started "ABC" and admitted P1 and P2. *)
Definition scenario_B : world :=
  exec_all
    [EvStartMeeting "H" (mk_data [("meeting_code", "ABC"); ("user_id", "h")]);
     EvRequestJoin "P1" (mk_data [("meeting_code", "ABC")]);
     EvHostResponse "H" (mk_data [("requester_sid", "P1"); ("action", "allow")]);
     EvRequestJoin "P2" (mk_data [("meeting_code", "ABC")]);
     EvHostResponse "H" (mk_data [("requester_sid", "P2"); ("action", "allow")])]
    empty_world.

(** A participant whose meeting is gone: in scenario B the host ended the
    meeting, P1 is still connected. *)
Definition scenario_ended : world :=
  step scenario_B (EvEndMeeting "H" ∅).

(** Scenario C with a repeated admission: the host allowed P1 twice before
    allowing P2. *)
Definition scenario_twice : world :=
  exec_all
    [EvStartMeeting "H" (mk_data [("meeting_code", "ABC")]);
     EvHostResponse "H" (mk_data [("requester_sid", "P1"); ("action", "allow")]);
     EvHostResponse "H" (mk_data [("requester_sid", "P1"); ("action", "allow")]);
     EvHostResponse "H" (mk_data [("requester_sid", "P2"); ("action", "allow")])]
    empty_world.

(** One meeting, one host, nobody admitted yet. *)
Definition scenario_started : world :=
  step empty_world (EvStartMeeting "H" (mk_data [("meeting_code", "ABC")])).

(** Scenario A's decision: the host allows P. *)
Definition allow_P : event :=
  EvHostResponse "H" (mk_data [("requester_sid", "P"); ("action", "allow")]).

(** The host names itself as the requester. *)
Definition allow_H : event :=
  EvHostResponse "H" (mk_data [("requester_sid", "H"); ("action", "allow")]).

(** ** Unfolding handlers *)

Ltac unfold_ops :=
  unfold participants_remove, participants_append,
    emit, enter_room, leave_room, tell, raise,
    active_users_get, active_users_set, active_users_del,
    meetings_contains, meetings_getitem, meetings_set, meetings_del,
    mbind, M_bind, mret, M_ret in *.

Ltac unfold_handlers :=
  unfold step, handle, connect, disconnect, start_meeting, request_join,
    host_response, kick_participant, end_meeting, webrtc_signal in *.

Ltac run_handler := unfold_handlers; unfold_ops; cbn.

(** ** Facts about [remove_first] *)

Lemma remove_first_subseteq x l : remove_first x l ⊆ l.
Proof.
  induction l as [|y l IH]; cbn; [done|].
  destruct (decide (x = y)); intros z Hz.
  - by apply elem_of_cons; right.
  - apply elem_of_cons in Hz as [->|Hz]; apply elem_of_cons; auto.
Qed.

Lemma remove_first_Permutation x l : x ∈ l → l ≡ₚ x :: remove_first x l.
Proof.
  induction l as [|y l IH]; cbn; [by intros ?%elem_of_nil|].
  destruct (decide (x = y)) as [->|Hne]; [done|].
  intros [?|Hin]%elem_of_cons; [done|].
  rewrite (IH Hin) at 1. apply Permutation_swap.
Qed.

Lemma remove_first_NoDup x l : NoDup l → NoDup (remove_first x l).
Proof.
  intros Hnd. induction Hnd as [|y l Hy Hl IH]; cbn; [constructor|].
  destruct (decide (x = y)); [done|].
  constructor; [|done]. intros Hin. by apply Hy, (remove_first_subseteq x).
Qed.

Lemma remove_first_NoDup_notin x l : NoDup l → x ∉ remove_first x l.
Proof.
  intros Hnd. induction Hnd as [|y l Hy Hl IH]; cbn; [apply not_elem_of_nil|].
  destruct (decide (x = y)) as [->|Hne]; [done|].
  by intros [?|?]%elem_of_cons.
Qed.

(** ** Closed forms of the handlers *)

Lemma disconnect_eq sid w :
  disconnect sid w =
  match active_users w !! Some sid with
  | None => Run (Returned ()) w []
  | Some u =>
      let gone := delete (Some sid) (active_users w) in
      match meetings w !! meeting_code u with
      | None => Run (Returned ()) (World (meetings w) gone) []
      | Some m =>
          match role u with
          | Host =>
              Run (Returned ())
                  (World (delete (meeting_code u) (meetings w)) gone)
                  [Emit "meeting_ended" None (Room (meeting_code u) None)]
          | Participant =>
              Run (Returned ())
                  (World
                     (if decide (Some sid ∈ participants m)
                      then <[meeting_code u :=
                               Meeting (host_sid m)
                                 (remove_first (Some sid) (participants m))]>
                             (meetings w)
                      else meetings w)
                     gone)
                  [Emit "participant_left" (Some [("sid", Some sid)])
                     (Room (meeting_code u) None)]
          end
      end
  end.
Proof.
  run_handler.
  destruct (active_users w !! Some sid) as [u|] eqn:Hu; cbn; [|done].
  destruct (meetings w !! meeting_code u) as [m|] eqn:Hm; cbn.
  - destruct (role u); cbn; rewrite ?Hm; cbn; rewrite ?Hu; cbn; [done|].
    destruct (decide (Some sid ∈ participants m)); cbn; rewrite ?Hm; cbn.
    + rewrite decide_True by done. cbn. by rewrite Hu.
    + by rewrite Hu.
  - by rewrite Hu.
Qed.

Lemma start_meeting_eq sid d w :
  start_meeting sid d w =
  let c := data_get d "meeting_code" in
  Run (Returned ())
      (World (<[c := Meeting (Some sid) []]> (meetings w))
             (<[Some sid := User (data_get d "user_id") c Host]>
                (active_users w)))
      [EnterRoom (Some sid) c;
       Emit "meeting_started"
            (Some [("status", Some "success"); ("meeting_code", c)])
            (To (Some sid))].
Proof. reflexivity. Qed.

Lemma request_join_eq sid d w :
  request_join sid d w =
  match meetings w !! data_get d "meeting_code" with
  | None =>
      Run (Returned ()) w
          [Emit "join_error" (Some [("message", Some "Invalid meeting code")])
                (To (Some sid))]
  | Some m =>
      Run (Returned ()) w
          [Emit "join_request_received"
                (Some [("sid", Some sid);
                       ("user_info", data_get d "user_info")])
                (To (host_sid m));
           Emit "waiting_for_host"
                (Some [("message", Some "Waiting for host to let you in...")])
                (To (Some sid))]
  end.
Proof.
  run_handler.
  destruct (meetings w !! data_get d "meeting_code") as [m|] eqn:Hm; cbn;
    rewrite ?Hm; done.
Qed.

Lemma host_response_eq sid d w :
  host_response sid d w =
  let r := data_get d "requester_sid" in
  let c := sender_code w sid in
  if decide (data_get d "action" = Some "allow") then
    match meetings w !! c with
    | Some m =>
        Run (Returned ())
            (World (<[c := Meeting (host_sid m) (participants m ++ [r])]>
                      (meetings w))
                   (<[r := User (data_get d "user_id") c Participant]>
                      (active_users w)))
            [EnterRoom r c;
             Emit "join_accepted" (Some [("meeting_code", c)]) (To r);
             Emit "participant_joined" (Some [("sid", r)]) (Room c r)]
    | None => Run (Raised (KeyError c)) w [EnterRoom r c]
    end
  else
    Run (Returned ()) w
        [Emit "join_denied"
              (Some [("message", Some "The host declined your request.")])
              (To r)].
Proof.
  unfold sender_code. run_handler.
  destruct (decide (data_get d "action" = Some "allow")); cbn; [|done].
  destruct (meetings w !! _) as [m|] eqn:Hm; cbn; done.
Qed.

Lemma kick_participant_eq sid d w :
  kick_participant sid d w =
  let t := data_get d "target_sid" in
  match active_users w !! Some sid with
  | Some u =>
      if decide (role u = Host) then
        match meetings w !! meeting_code u with
        | Some m =>
            if decide (t ∈ participants m) then
              Run (Returned ())
                  (World (<[meeting_code u :=
                              Meeting (host_sid m)
                                (remove_first t (participants m))]>
                            (meetings w))
                         (active_users w))
                  [Emit "kicked_by_host" None (To t);
                   LeaveRoom t (meeting_code u);
                   Emit "participant_left" (Some [("sid", t)])
                        (Room (meeting_code u) None)]
            else Run (Returned ()) w []
        | None => Run (Raised (KeyError (meeting_code u))) w []
        end
      else Run (Returned ()) w []
  | None => Run (Returned ()) w []
  end.
Proof.
  run_handler.
  destruct (active_users w !! Some sid) as [u|] eqn:Hu; cbn; [|done].
  destruct (decide (role u = Host)); cbn; [|done].
  destruct (meetings w !! meeting_code u) as [m|] eqn:Hm; cbn; [|done].
  destruct (decide (data_get d "target_sid" ∈ participants m)); cbn; [|done].
  rewrite Hm. cbn. by rewrite decide_True by done.
Qed.

Lemma end_meeting_eq sid d w :
  end_meeting sid d w =
  match active_users w !! Some sid with
  | Some u =>
      if decide (role u = Host) then
        Run (Returned ())
            (match meetings w !! meeting_code u with
             | Some _ =>
                 World (delete (meeting_code u) (meetings w)) (active_users w)
             | None => w
             end)
            [Emit "meeting_ended" None (Room (meeting_code u) None)]
      else Run (Returned ()) w []
  | None => Run (Returned ()) w []
  end.
Proof.
  run_handler.
  destruct (active_users w !! Some sid) as [u|] eqn:Hu; cbn; [|done].
  destruct (decide (role u = Host)); cbn; [|done].
  destruct (meetings w !! meeting_code u) as [m|] eqn:Hm; cbn; by rewrite ?Hm.
Qed.

Lemma webrtc_signal_eq sid d w :
  webrtc_signal sid d w =
  Run (Returned ()) w
      [Emit "webrtc_signal"
            (Some [("sender_sid", Some sid);
                   ("payload", data_get d "payload")])
            (To (data_get d "target_sid"))].
Proof. reflexivity. Qed.

(** ** The effect of one event on the Meeting Registry *)

Lemma step_meetings_change w e : meetings_change w e (meetings (step w e)).
Proof.
  unfold step. destruct e as [sid|sid|sid d|sid d|sid d|sid d|sid d|sid d]; cbn [handle].
  - apply change_none.
  - rewrite disconnect_eq.
    destruct (active_users w !! Some sid) as [u|]; cbn; [|apply change_none].
    destruct (meetings w !! meeting_code u) as [m|] eqn:Hm; cbn;
      [|apply change_none].
    destruct (role u); cbn; [apply change_delete|].
    destruct (decide _); [by apply change_remove | apply change_none].
  - rewrite start_meeting_eq. cbn. by eapply change_start.
  - rewrite request_join_eq. destruct (meetings w !! _); apply change_none.
  - rewrite host_response_eq. cbn.
    destruct (decide _) as [Ha|Ha]; cbn; [|apply change_none].
    destruct (meetings w !! sender_code w sid) as [m|] eqn:Hm; cbn;
      [|apply change_none].
    apply change_admit. cbn. rewrite decide_True by done. by rewrite Hm.
  - rewrite kick_participant_eq. cbn.
    destruct (active_users w !! Some sid) as [u|]; cbn; [|apply change_none].
    destruct (decide _); cbn; [|apply change_none].
    destruct (meetings w !! meeting_code u) as [m|] eqn:Hm; cbn;
      [|apply change_none].
    destruct (decide _); [by apply change_remove | apply change_none].
  - rewrite end_meeting_eq.
    destruct (active_users w !! Some sid) as [u|]; cbn; [|apply change_none].
    destruct (decide _); cbn; [|apply change_none].
    destruct (meetings w !! meeting_code u); cbn;
      [apply change_delete | apply change_none].
  - apply change_none.
Qed.

(** ** Disconnect *)

Lemma disconnect_returns sid w : out (disconnect sid w) = Returned ().
Proof.
  rewrite disconnect_eq.
  destruct (active_users w !! Some sid) as [u|]; cbn; [|done].
  destruct (meetings w !! meeting_code u) as [m|]; cbn; [|done].
  by destruct (role u).
Qed.

Lemma disconnect_forgets sid w :
  active_users (final (disconnect sid w)) !! Some sid = None.
Proof.
  rewrite disconnect_eq.
  destruct (active_users w !! Some sid) as [u|] eqn:Hu; cbn; [|done].
  destruct (meetings w !! meeting_code u) as [m|]; cbn;
    [destruct (role u); cbn|]; apply lookup_delete_eq.
Qed.

(** C6: running the disconnect handler twice in a row for the same
    connection never raises; whatever cleanup and broadcast there is happens
    in the first call, after which the connection has no registry entry, and
    the second call returns normally, changes neither registry and emits
    nothing. *)
Theorem disconnect_twice sid w :
  let r1 := disconnect sid w in
  out r1 = Returned () ∧
  active_users (final r1) !! Some sid = None ∧
  no_op (disconnect sid (final r1)) (final r1).
Proof.
  cbn zeta. split; [apply disconnect_returns|].
  split; [apply disconnect_forgets|].
  unfold no_op. by rewrite (disconnect_eq sid (final _)), disconnect_forgets.
Qed.

(** C10: a connection whose registry entry names a meeting code that has no
    Meeting Registry entry is disconnected by deleting its own entry only;
    nothing is emitted. *)
Theorem disconnect_meeting_gone sid w u :
  active_users w !! Some sid = Some u →
  meetings w !! meeting_code u = None →
  disconnect sid w =
  Run (Returned ())
      (World (meetings w) (delete (Some sid) (active_users w))) [].
Proof. intros Hu Hm. by rewrite disconnect_eq, Hu, Hm. Qed.

Lemma disconnect_meeting_gone_witness :
  disconnect "P1" scenario_ended =
  Run (Returned ())
      (World (meetings scenario_ended)
             (delete (Some "P1") (active_users scenario_ended))) [].
Proof.
  apply (disconnect_meeting_gone "P1" scenario_ended
           (User None (Some "ABC") Participant)); vm_compute; reflexivity.
Defined.

(** ** Joining *)

(** C7: [request_join] with a meeting code that has no Meeting Registry
    entry emits exactly one [join_error], addressed to the requester, and
    leaves both registries as they were. *)
Theorem request_join_unknown_code sid d w :
  meetings w !! data_get d "meeting_code" = None →
  request_join sid d w =
  Run (Returned ()) w
      [Emit "join_error" (Some [("message", Some "Invalid meeting code")])
            (To (Some sid))].
Proof. intros Hm. by rewrite request_join_eq, Hm. Qed.

Lemma request_join_unknown_code_witness :
  request_join "P3" (mk_data [("meeting_code", "XYZ")]) scenario_B =
  Run (Returned ()) scenario_B
      [Emit "join_error" (Some [("message", Some "Invalid meeting code")])
            (To (Some "P3"))].
Proof.
  apply (request_join_unknown_code "P3" (mk_data [("meeting_code", "XYZ")])
           scenario_B).
  vm_compute. reflexivity.
Defined.

(** ** Host loss and restart *)

(** C8: when a connection registered as host of an existing meeting
    disconnects, exactly one event is emitted, [meeting_ended] addressed to
    the meeting's room with no connection skipped; the meeting's entry is
    deleted; and a [start_meeting] with the same code that follows returns
    normally and stores a fresh meeting whose host is the new caller and
    whose participants list is empty. *)
Theorem host_disconnect_then_restart h w u m sid' d :
  active_users w !! Some h = Some u →
  role u = Host →
  meetings w !! meeting_code u = Some m →
  data_get d "meeting_code" = meeting_code u →
  let r := disconnect h w in
  let r' := start_meeting sid' d (final r) in
  out r = Returned () ∧
  emitted r = [Emit "meeting_ended" None (Room (meeting_code u) None)] ∧
  meetings (final r) = delete (meeting_code u) (meetings w) ∧
  meetings (final r) !! meeting_code u = None ∧
  out r' = Returned () ∧
  meetings (final r') !! meeting_code u = Some (Meeting (Some sid') []) ∧
  active_users (final r') !! Some sid' =
    Some (User (data_get d "user_id") (meeting_code u) Host).
Proof.
  intros Hu Hrole Hm Hd. cbn zeta.
  rewrite start_meeting_eq, disconnect_eq, Hu, Hm, Hrole, Hd. cbn.
  repeat split; first [apply lookup_delete_eq | apply lookup_insert_eq].
Qed.

Lemma host_disconnect_then_restart_witness :
  let r := disconnect "H" scenario_B in
  let r' := start_meeting "H2" (mk_data [("meeting_code", "ABC")]) (final r) in
  out r = Returned () ∧
  emitted r = [Emit "meeting_ended" None (Room (Some "ABC") None)] ∧
  meetings (final r) = delete (Some "ABC") (meetings scenario_B) ∧
  meetings (final r) !! Some "ABC" = None ∧
  out r' = Returned () ∧
  meetings (final r') !! Some "ABC" = Some (Meeting (Some "H2") []) ∧
  active_users (final r') !! Some "H2" = Some (User None (Some "ABC") Host).
Proof.
  apply (host_disconnect_then_restart "H" scenario_B
           (User (Some "h") (Some "ABC") Host)
           (Meeting (Some "H") [Some "P1"; Some "P2"])
           "H2" (mk_data [("meeting_code", "ABC")]));
    vm_compute; reflexivity.
Defined.

(** ** Kicking *)

(** C9, as the code has it: when a connection registered as host kicks a
    target listed in its meeting's participants, the handler returns
    normally; the target is sent [kicked_by_host], is taken out of the room,
    and [participant_left] is then broadcast to the room; the first
    occurrence of the target is dropped from the participants list, so the
    old list is the target followed by the new list up to order; and the
    Connection Registry, the target's entry included, is left as it was. *)
Theorem kick_drops_one_occurrence h d w u m :
  active_users w !! Some h = Some u →
  role u = Host →
  meetings w !! meeting_code u = Some m →
  data_get d "target_sid" ∈ participants m →
  let t := data_get d "target_sid" in
  let r := kick_participant h d w in
  out r = Returned () ∧
  emitted r =
    [Emit "kicked_by_host" None (To t);
     LeaveRoom t (meeting_code u);
     Emit "participant_left" (Some [("sid", t)]) (Room (meeting_code u) None)] ∧
  meetings (final r) =
    <[meeting_code u := Meeting (host_sid m) (remove_first t (participants m))]>
      (meetings w) ∧
  participants m ≡ₚ t :: remove_first t (participants m) ∧
  active_users (final r) = active_users w.
Proof.
  intros Hu Hrole Hm Ht. cbn zeta.
  rewrite kick_participant_eq, Hu. cbn zeta.
  rewrite decide_True by done. rewrite Hm, decide_True by done. cbn.
  repeat split. by apply remove_first_Permutation.
Qed.

Lemma kick_drops_one_occurrence_witness :
  let r := kick_participant "H" (mk_data [("target_sid", "P1")]) scenario_B in
  out r = Returned () ∧
  emitted r =
    [Emit "kicked_by_host" None (To (Some "P1"));
     LeaveRoom (Some "P1") (Some "ABC");
     Emit "participant_left" (Some [("sid", Some "P1")])
          (Room (Some "ABC") None)] ∧
  meetings (final r) =
    <[Some "ABC" := Meeting (Some "H") [Some "P2"]]> (meetings scenario_B) ∧
  [Some "P1"; Some "P2"] ≡ₚ [Some "P1"; Some "P2"] ∧
  active_users (final r) = active_users scenario_B.
Proof.
  apply (kick_drops_one_occurrence "H" (mk_data [("target_sid", "P1")])
           scenario_B (User (Some "h") (Some "ABC") Host)
           (Meeting (Some "H") [Some "P1"; Some "P2"]));
    vm_compute; first [reflexivity | by repeat constructor].
Defined.

(** When the participants list had no duplicates, the kicked target is
    absent from it afterwards. *)
Lemma kick_target_absent_when_nodup h d w u m :
  active_users w !! Some h = Some u →
  role u = Host →
  meetings w !! meeting_code u = Some m →
  data_get d "target_sid" ∈ participants m →
  NoDup (participants m) →
  ∃ m', meetings (final (kick_participant h d w)) !! meeting_code u = Some m' ∧
        data_get d "target_sid" ∉ participants m'.
Proof.
  intros Hu Hrole Hm Ht Hnd.
  rewrite kick_participant_eq, Hu. cbn zeta.
  rewrite decide_True by done. rewrite Hm, decide_True by done. cbn.
  eexists. split; [apply lookup_insert_eq|].
  by apply remove_first_NoDup_notin.
Qed.

(** C9, as stated, fails: after the host allowed P1 twice, one kick leaves
    P1 in the participants list. *)
Lemma kicked_target_still_listed :
  ¬ (∀ h d w u m,
       active_users w !! Some h = Some u →
       role u = Host →
       meetings w !! meeting_code u = Some m →
       data_get d "target_sid" ∈ participants m →
       ∀ m', meetings (final (kick_participant h d w)) !! meeting_code u
               = Some m' →
             data_get d "target_sid" ∉ participants m').
Proof.
  intros Hclaim.
  apply (Hclaim "H" (mk_data [("target_sid", "P1")]) scenario_twice
           (User None (Some "ABC") Host)
           (Meeting (Some "H") [Some "P1"; Some "P1"; Some "P2"])
           eq_refl eq_refl eq_refl
           ltac:(vm_compute; constructor)
           (Meeting (Some "H") [Some "P1"; Some "P2"]) eq_refl).
  vm_compute. constructor.
Qed.

(** ** Invariants of the Meeting Registry *)

Lemma exec_all_preserves (P : world → Prop) (ok : world → event → Prop) :
  (∀ w e, P w → ok w e → P (step w e)) →
  ∀ es w, P w → along ok w es → P (exec_all es w).
Proof.
  intros Hstep es. induction es as [|e es IH]; intros w Hw Hes; [done|].
  destruct Hes as [He Hes]. cbn. apply IH; [by apply Hstep | done].
Qed.

Lemma admitted_Some e w c m x :
  admitted e w = Some (c, m, x) →
  meetings w !! c = Some m ∧ joins e w = Some (x, c).
Proof.
  destruct e as [sid|sid|sid d|sid d|sid d|sid d|sid d|sid d]; cbn;
    try discriminate.
  destruct (decide _); [|discriminate].
  destruct (meetings w !! sender_code w sid) as [m'|] eqn:Hm; cbn;
    [|discriminate].
  intros [= <- <- <-]. done.
Qed.

Lemma host_not_participant_step w e :
  host_not_participant w →
  admits_other_than_host w e →
  host_not_participant (step w e).
Proof.
  unfold host_not_participant. intros Hinv Hok.
  destruct (step_meetings_change w e) as [|c|c m x Hm|sid d _|c m x Had].
  - done.
  - by apply map_Forall_delete.
  - apply map_Forall_insert_2; [|done]. cbn.
    intros Hin%remove_first_subseteq.
    by apply (map_Forall_lookup_1 _ _ _ _ Hinv Hm).
  - apply map_Forall_insert_2; [|done]. cbn. apply not_elem_of_nil.
  - pose proof (Hok _ _ _ Had) as Hne.
    apply admitted_Some in Had as [Hm _].
    apply map_Forall_insert_2; [|done]. cbn.
    intros [Hin|Hin%list_elem_of_singleton]%elem_of_app; [|done].
    by apply (map_Forall_lookup_1 _ _ _ _ Hinv Hm).
Qed.

(** C3, as the code has it: from a state in which no meeting lists its own
    host as a participant (the empty registries are one), every sequence of
    events leads to such a state again, as long as no [host_response] with
    action ["allow"] in it names the host of the sender's meeting as
    [requester_sid]. *)
Theorem host_not_participant_run w es :
  host_not_participant w →
  along admits_other_than_host w es →
  host_not_participant (exec_all es w).
Proof.
  intros Hinv. revert w Hinv.
  apply (exec_all_preserves host_not_participant admits_other_than_host).
  apply host_not_participant_step.
Qed.

Lemma host_not_participant_run_witness :
  host_not_participant
    (exec_all
       [EvStartMeeting "H" (mk_data [("meeting_code", "ABC")]); allow_P]
       empty_world).
Proof.
  apply (host_not_participant_run empty_world).
  - apply (bool_decide_unpack _). vm_compute. exact I.
  - cbn. split; [intros c m x [=]|]. split; [|exact I].
    intros c m x Had. vm_compute in Had. injection Had as <- <- <-.
    discriminate.
Defined.

(** C3, as stated, fails: a host that allows itself ends up in its own
    meeting's participants. *)
Lemma host_admits_itself :
  ¬ (∀ w, reachable w → host_not_participant w).
Proof.
  intros Hclaim.
  pose proof (Hclaim (step scenario_started allow_H)
                (ex_intro _ [_; _] eq_refl)) as Hinv.
  apply (map_Forall_lookup_1 _ _ (Some "ABC")
           (Meeting (Some "H") [Some "H"])) in Hinv; [|reflexivity].
  apply Hinv. cbn. constructor.
Qed.

Lemma participants_nodup_step w e :
  participants_nodup w →
  admits_unlisted w e →
  participants_nodup (step w e).
Proof.
  unfold participants_nodup. intros Hinv Hok.
  destruct (step_meetings_change w e) as [|c|c m x Hm|sid d _|c m x Had].
  - done.
  - by apply map_Forall_delete.
  - apply map_Forall_insert_2; [|done]. cbn.
    apply remove_first_NoDup, (map_Forall_lookup_1 _ _ _ _ Hinv Hm).
  - apply map_Forall_insert_2; [|done]. cbn. constructor.
  - pose proof (Hok _ _ _ Had) as Hnew.
    apply admitted_Some in Had as [Hm _].
    apply map_Forall_insert_2; [|done]. cbn.
    apply NoDup_app. split; [apply (map_Forall_lookup_1 _ _ _ _ Hinv Hm)|].
    split; [|apply NoDup_singleton].
    by intros y Hy ->%list_elem_of_singleton.
Qed.

(** C5, as the code has it: the participants collection is a list; from a
    state in which no participants list has a duplicate (the empty
    registries are one), every sequence of events leads to such a state
    again, as long as no [host_response] with action ["allow"] in it names
    a [requester_sid] that the sender's meeting already lists. *)
Theorem participants_nodup_run w es :
  participants_nodup w →
  along admits_unlisted w es →
  participants_nodup (exec_all es w).
Proof.
  intros Hinv. revert w Hinv.
  apply (exec_all_preserves participants_nodup admits_unlisted).
  apply participants_nodup_step.
Qed.

Lemma participants_nodup_run_witness :
  participants_nodup
    (exec_all
       [EvStartMeeting "H" (mk_data [("meeting_code", "ABC")]); allow_P]
       empty_world).
Proof.
  apply (participants_nodup_run empty_world).
  - apply (bool_decide_unpack _). vm_compute. exact I.
  - cbn. split; [intros c m x [=]|]. split; [|exact I].
    intros c m x Had. vm_compute in Had. injection Had as <- <- <-.
    apply not_elem_of_nil.
Defined.

(** C5, as stated, fails: allowing the same requester twice lists it
    twice. *)
Lemma requester_admitted_twice :
  ¬ (∀ w, reachable w → participants_nodup w).
Proof.
  intros Hclaim.
  pose proof (Hclaim (exec_all [allow_P; allow_P] scenario_started)
                (ex_intro _ [_; _; _] eq_refl)) as Hinv.
  apply (map_Forall_lookup_1 _ _ (Some "ABC")
           (Meeting (Some "H") [Some "P"; Some "P"])) in Hinv; [|reflexivity].
  cbn in Hinv. apply NoDup_cons in Hinv as [Hin _].
  apply Hin. constructor.
Qed.

Section membership.
Context (ms : gmap pykey meeting).
Hypothesis Hunique : ∀ x c1 c2, member_of ms x c1 → member_of ms x c2 → c1 = c2.

Lemma member_of_delete c x c1 :
  member_of (delete c ms) x c1 → member_of ms x c1.
Proof. intros (m & [_ Hm]%lookup_delete_Some & Hx). by exists m. Qed.

Lemma unique_delete c x c1 c2 :
  member_of (delete c ms) x c1 → member_of (delete c ms) x c2 → c1 = c2.
Proof. intros H1%member_of_delete H2%member_of_delete. eauto. Qed.

(** Storing [m'] under [c] keeps membership unique when no member of
    [m'] belongs to a meeting stored under another code. *)
Lemma unique_insert c m' x c1 c2 :
  (∀ y, y ∈ members m' → ∀ c', member_of ms y c' → c' = c) →
  member_of (<[c := m']> ms) x c1 →
  member_of (<[c := m']> ms) x c2 →
  c1 = c2.
Proof.
  intros Hnew (m1 & H1 & Hx1) (m2 & H2 & Hx2).
  apply lookup_insert_Some in H1 as [[<- <-]|[Hne1 H1]];
    apply lookup_insert_Some in H2 as [[<- <-]|[Hne2 H2]].
  - done.
  - symmetry. apply (Hnew x Hx1). by exists m2.
  - apply (Hnew x Hx2). by exists m1.
  - apply (Hunique x); [by exists m1 | by exists m2].
Qed.
End membership.

Lemma one_meeting_each_disjoint w : one_meeting_each w ↔ disjoint_meetings w.
Proof.
  unfold one_meeting_each, disjoint_meetings, member, member_of. split.
  - intros Hinv c1 m1 H1 c2 m2 H2.
    destruct (decide (c1 = c2)) as [|Hne]; [by left|right].
    apply Forall_forall. intros x Hx1 Hx2. apply Hne, (Hinv x); eauto.
  - intros Hdis x c1 c2 (m1 & H1 & Hx1) (m2 & H2 & Hx2).
    destruct (Hdis c1 m1 H1 c2 m2 H2) as [|Hall]; [done|].
    rewrite Forall_forall in Hall. by destruct (Hall x Hx1).
Qed.

Lemma one_meeting_each_step w e :
  one_meeting_each w →
  joins_unaffiliated w e →
  one_meeting_each (step w e).
Proof.
  unfold one_meeting_each, member. intros Hinv Hok.
  destruct (step_meetings_change w e) as [|c|c m x Hm|sid d He|c m x Had].
  - done.
  - intros y c1 c2. by apply unique_delete.
  - intros y c1 c2. apply unique_insert; [done|].
    intros z Hz c' Hc'. apply (Hinv z); [done|]. exists m. split; [done|].
    unfold members in *. cbn in Hz.
    apply elem_of_cons in Hz as [->|Hz%remove_first_subseteq];
      apply elem_of_cons; auto.
  - intros y c1 c2. apply unique_insert; [done|].
    intros z Hz c' Hc'. apply list_elem_of_singleton in Hz as ->.
    subst e. by apply (Hok (Some sid)).
  - pose proof (Hok x c) as Hnew.
    apply admitted_Some in Had as [Hm Hj].
    intros y c1 c2. apply unique_insert; [done|].
    intros z Hz c' Hc'. unfold members in Hz. cbn in Hz.
    rewrite app_comm_cons in Hz.
    apply elem_of_app in Hz as [Hz|Hz%list_elem_of_singleton];
      [|subst z; by apply Hnew].
    apply (Hinv z); [done|]. by exists m.
Qed.

(** C4, as the code has it: from a state in which every connection is a
    member (host or participant) of at most one meeting (the empty
    registries are one), every sequence of events leads to such a state
    again, as long as each connection that an event adds to a meeting (the
    caller of [start_meeting], the requester of an allowed [host_response])
    is not at that moment a member of a meeting stored under another
    code. *)
Theorem one_meeting_each_run w es :
  one_meeting_each w →
  along joins_unaffiliated w es →
  one_meeting_each (exec_all es w).
Proof.
  intros Hinv. revert w Hinv.
  apply (exec_all_preserves one_meeting_each joins_unaffiliated).
  apply one_meeting_each_step.
Qed.

Lemma one_meeting_each_run_witness :
  one_meeting_each
    (exec_all
       [EvStartMeeting "H" (mk_data [("meeting_code", "ABC")]); allow_P]
       empty_world).
Proof.
  apply (one_meeting_each_run empty_world).
  - apply one_meeting_each_disjoint, (bool_decide_unpack _).
    vm_compute. exact I.
  - cbn. split.
    + intros x c _ c' (m & Hm & _). cbn in Hm. by rewrite lookup_empty in Hm.
    + split; [|exact I].
      intros x c Hj. vm_compute in Hj. injection Hj as <- <-.
      intros c' (m & Hm & _).
      change (<[Some "ABC" := Meeting (Some "H") []]>
                (∅ : gmap pykey meeting) !! c' = Some m) in Hm.
      by apply lookup_insert_Some in Hm as [[<- _]|[_ Hm]].
Defined.

(** C4, as stated, fails: a connection that starts a second meeting under
    another code is host of both. *)
Lemma host_of_two_meetings :
  ¬ (∀ w, reachable w → one_meeting_each w).
Proof.
  intros Hclaim.
  pose proof (Hclaim
    (step scenario_started
       (EvStartMeeting "H" (mk_data [("meeting_code", "XYZ")])))
    (ex_intro _ [_; _] eq_refl) (Some "H") (Some "ABC") (Some "XYZ")) as Heq.
  assert (Some "ABC" = Some "XYZ") as [=]. 
  apply Heq; (eexists; split; [reflexivity|]); constructor.
Qed.

(** ** Which handlers raise *)

(** X1: a handler raises exactly when it looks up a missing meeting without
    a guard, which only [host_response] with action ["allow"] and
    [kick_participant] by a host can do, and then it raises [KeyError] on
    that meeting code; in every other case every handler returns. *)
Lemma handle_outcome e w :
  out (handle e w) =
  match unguarded_lookup e w with
  | Some k => Raised (KeyError k)
  | None => Returned ()
  end.
Proof.
  destruct e as [sid|sid|sid d|sid d|sid d|sid d|sid d|sid d]; cbn [handle];
    try reflexivity.
  - apply disconnect_returns.
  - rewrite request_join_eq. by destruct (meetings w !! _).
  - rewrite host_response_eq. cbn.
    destruct (decide _); [|done]. by destruct (meetings w !! _).
  - rewrite kick_participant_eq. cbn.
    destruct (active_users w !! Some sid) as [u|]; cbn; [|done].
    destruct (decide _); [|done].
    destruct (meetings w !! _); [|done]. by destruct (decide _).
  - rewrite end_meeting_eq.
    destruct (active_users w !! Some sid) as [u|]; cbn; [|done].
    by destruct (decide _).
Qed.

(** C1 fails on the code: [host_response] with action ["allow"] from a
    connection that has no registry entry raises [KeyError] when it indexes
    [meetings[None]], after its [enter_room] call; and [kick_participant]
    from a host whose meeting was ended raises [KeyError] on the ended
    meeting's code. *)
Theorem unguarded_handlers_raise :
  handle (EvHostResponse "a"
            (mk_data [("requester_sid", "b"); ("action", "allow")]))
         empty_world
  = Run (Raised (KeyError None)) empty_world [EnterRoom (Some "b") None] ∧
  handle (EvKickParticipant "H" (mk_data [("target_sid", "P1")]))
         scenario_ended
  = Run (Raised (KeyError (Some "ABC"))) scenario_ended [].
Proof. split; vm_compute; reflexivity. Qed.

(** ** The sender of [host_response] *)

(** [host_response] always calls [sio]: no invocation of it is a no-op. *)
Lemma host_response_never_no_op sid d w : ¬ no_op (host_response sid d w) w.
Proof.
  rewrite host_response_eq. cbn. intros (_ & _ & Hlog).
  destruct (decide _); [destruct (meetings w !! _)|]; discriminate.
Qed.

(** C2 fails on the code: [host_response] never reads the sender's role.
    A connection with no registry entry that sends a denial makes the
    server emit [join_denied] to the requester; a participant that sends
    ["allow"] admits the requester to its meeting. *)
Theorem host_response_without_host_role :
  host_response "X" (mk_data [("requester_sid", "R"); ("action", "deny")])
                empty_world
  = Run (Returned ()) empty_world
        [Emit "join_denied"
              (Some [("message", Some "The host declined your request.")])
              (To (Some "R"))] ∧
  let r := host_response "P1"
             (mk_data [("requester_sid", "Q"); ("action", "allow")])
             scenario_B in
  active_users scenario_B !! Some "P1"
    = Some (User None (Some "ABC") Participant) ∧
  out r = Returned () ∧
  meetings (final r) !! Some "ABC"
    = Some (Meeting (Some "H") [Some "P1"; Some "P2"; Some "Q"]) ∧
  active_users (final r) !! Some "Q"
    = Some (User None (Some "ABC") Participant) ∧
  emitted r =
    [EnterRoom (Some "Q") (Some "ABC");
     Emit "join_accepted" (Some [("meeting_code", Some "ABC")]) (To (Some "Q"));
     Emit "participant_joined" (Some [("sid", Some "Q")])
          (Room (Some "ABC") (Some "Q"))].
Proof. cbn zeta. repeat split; vm_compute; reflexivity. Qed.

(** X2: the sibling handlers do test the role.  [kick_participant] from a
    connection that has no registry entry, or one whose role is not host,
    is a no-op whatever the target. *)
Lemma kick_participant_guarded sid d w :
  (∀ u, active_users w !! Some sid = Some u → role u ≠ Host) →
  no_op (kick_participant sid d w) w.
Proof.
  intros Hrole. rewrite kick_participant_eq. cbn.
  destruct (active_users w !! Some sid) as [u|] eqn:Hu; [|done].
  by rewrite decide_False by eauto.
Qed.

Lemma kick_participant_guarded_witness :
  no_op (kick_participant "P1" (mk_data [("target_sid", "P2")]) scenario_B)
        scenario_B.
Proof.
  apply (kick_participant_guarded "P1" (mk_data [("target_sid", "P2")])
           scenario_B).
  intros u Hu. vm_compute in Hu. injection Hu as <-. discriminate.
Defined.

(** X3: [end_meeting] from a connection that has no registry entry, or one
    whose role is not host, is a no-op. *)
Lemma end_meeting_guarded sid d w :
  (∀ u, active_users w !! Some sid = Some u → role u ≠ Host) →
  no_op (end_meeting sid d w) w.
Proof.
  intros Hrole. rewrite end_meeting_eq.
  destruct (active_users w !! Some sid) as [u|] eqn:Hu; [|done].
  by rewrite decide_False by eauto.
Qed.

Lemma end_meeting_guarded_witness :
  no_op (end_meeting "P1" ∅ scenario_B) scenario_B.
Proof.
  apply (end_meeting_guarded "P1" ∅ scenario_B).
  intros u Hu. vm_compute in Hu. injection Hu as <-. discriminate.
Defined.

(** ** Frame properties *)

(** X4: an event changes the Connection Registry at one key at most: the
    caller's own for [disconnect] and [start_meeting], [requester_sid] for
    an allowed [host_response].  Every other entry is as before; in
    particular ending or losing a meeting leaves the entries of its
    participants in place. *)
Theorem active_users_frame e w k :
  written_user e ≠ Some k →
  active_users (step w e) !! k = active_users w !! k.
Proof.
  unfold step.
  destruct e as [sid|sid|sid d|sid d|sid d|sid d|sid d|sid d]; cbn [handle];
    intros Hk; cbn in Hk; try reflexivity.
  - rewrite disconnect_eq.
    destruct (active_users w !! Some sid) as [u|]; cbn; [|done].
    assert (Some sid ≠ k) by congruence.
    destruct (meetings w !! meeting_code u); cbn; [destruct (role u); cbn|];
      by apply lookup_delete_ne.
  - rewrite start_meeting_eq. cbn. apply lookup_insert_ne. congruence.
  - rewrite request_join_eq. by destruct (meetings w !! _).
  - rewrite host_response_eq. cbn.
    destruct (decide _); [|done].
    destruct (meetings w !! _); cbn; [|done].
    apply lookup_insert_ne. congruence.
  - rewrite kick_participant_eq. cbn.
    destruct (active_users w !! Some sid) as [u|]; cbn; [|done].
    destruct (decide _); [|done].
    destruct (meetings w !! _); [|done]. by destruct (decide _).
  - rewrite end_meeting_eq.
    destruct (active_users w !! Some sid) as [u|]; cbn; [|done].
    destruct (decide _); [|done]. by destruct (meetings w !! _).
Qed.

Lemma active_users_frame_witness :
  active_users (step scenario_B (EvDisconnect "H")) !! Some "P1"
  = active_users scenario_B !! Some "P1".
Proof.
  apply (active_users_frame (EvDisconnect "H") scenario_B (Some "P1")).
  cbn. discriminate.
Defined.

(** X5: an event changes the Meeting Registry at one code at most: the
    code in the caller's registry entry for [disconnect], [kick_participant]
    and [end_meeting], the code in the payload for [start_meeting], the
    sender's code for an allowed [host_response].  Every other meeting is
    as before. *)
Theorem meetings_frame e w c :
  written_meeting e w ≠ Some c →
  meetings (step w e) !! c = meetings w !! c.
Proof.
  unfold step.
  destruct e as [sid|sid|sid d|sid d|sid d|sid d|sid d|sid d]; cbn [handle];
    intros Hc; cbn in Hc; try reflexivity.
  - rewrite disconnect_eq.
    destruct (active_users w !! Some sid) as [u|]; cbn in *; [|done].
    assert (meeting_code u ≠ c) by congruence.
    destruct (meetings w !! meeting_code u); cbn; [|done].
    destruct (role u); cbn; [by apply lookup_delete_ne|].
    destruct (decide _); [by apply lookup_insert_ne | done].
  - rewrite start_meeting_eq. cbn. apply lookup_insert_ne. congruence.
  - rewrite request_join_eq. by destruct (meetings w !! _).
  - rewrite host_response_eq. cbn.
    destruct (decide _); [|done].
    destruct (meetings w !! _); cbn; [|done].
    apply lookup_insert_ne. congruence.
  - rewrite kick_participant_eq. cbn.
    destruct (active_users w !! Some sid) as [u|]; cbn in *; [|done].
    assert (meeting_code u ≠ c) by congruence.
    destruct (decide _); [|done].
    destruct (meetings w !! _); [|done].
    destruct (decide _); [by apply lookup_insert_ne | done].
  - rewrite end_meeting_eq.
    destruct (active_users w !! Some sid) as [u|]; cbn in *; [|done].
    assert (meeting_code u ≠ c) by congruence.
    destruct (decide _); [|done].
    destruct (meetings w !! _); cbn; [by apply lookup_delete_ne | done].
Qed.

Lemma meetings_frame_witness :
  meetings (step scenario_B
              (EvStartMeeting "G" (mk_data [("meeting_code", "XYZ")])))
    !! Some "ABC"
  = meetings scenario_B !! Some "ABC".
Proof.
  apply (meetings_frame
           (EvStartMeeting "G" (mk_data [("meeting_code", "XYZ")]))
           scenario_B (Some "ABC")).
  vm_compute. discriminate.
Defined.

(** ** Where meetings and hosts come from *)

(** X6: only [start_meeting] creates a meeting.  If a code is not stored
    before an event and is stored after it, the event is a [start_meeting]
    with that code and the new meeting has the caller as host and no
    participants. *)
Theorem meeting_created_by_start e w c m :
  meetings w !! c = None →
  meetings (step w e) !! c = Some m →
  ∃ sid d, e = EvStartMeeting sid d ∧ data_get d "meeting_code" = c ∧
           m = Meeting (Some sid) [].
Proof.
  intros Hold.
  destruct (step_meetings_change w e) as [|c0|c0 m0 x Hm0|sid d He|c0 m0 x Had].
  - congruence.
  - intros [_ ?]%lookup_delete_Some. congruence.
  - intros [[<- _]|[_ ?]]%lookup_insert_Some; congruence.
  - intros [[<- <-]|[_ ?]]%lookup_insert_Some; [by eauto | congruence].
  - apply admitted_Some in Had as [Hm0 _].
    intros [[<- _]|[_ ?]]%lookup_insert_Some; congruence.
Qed.

Lemma meeting_created_by_start_witness :
  ∃ sid d,
    EvStartMeeting "G" (mk_data [("meeting_code", "XYZ")])
      = EvStartMeeting sid d ∧
    data_get d "meeting_code" = Some "XYZ" ∧
    Meeting (Some "G") [] = Meeting (Some sid) [].
Proof.
  apply (meeting_created_by_start
           (EvStartMeeting "G" (mk_data [("meeting_code", "XYZ")]))
           scenario_B (Some "XYZ") (Meeting (Some "G") []));
    vm_compute; reflexivity.
Defined.

(** X7: the host of a stored meeting is fixed.  Whatever the event, unless
    it is a [start_meeting] with the meeting's own code, a meeting that is
    stored before and after the event has the same [host_sid]: admissions,
    kicks and departures never hand the meeting to somebody else. *)
Theorem host_sid_stable e w c m m' :
  (∀ sid d, e = EvStartMeeting sid d → data_get d "meeting_code" ≠ c) →
  meetings w !! c = Some m →
  meetings (step w e) !! c = Some m' →
  host_sid m' = host_sid m.
Proof.
  intros Hstart Hold.
  destruct (step_meetings_change w e) as [|c0|c0 m0 x Hm0|sid d He|c0 m0 x Had].
  - congruence.
  - intros [_ ?]%lookup_delete_Some. congruence.
  - intros [[<- <-]|[_ ?]]%lookup_insert_Some; cbn; congruence.
  - intros [[<- _]|[_ ?]]%lookup_insert_Some; [|congruence].
    by destruct (Hstart sid d He).
  - apply admitted_Some in Had as [Hm0 _].
    intros [[<- <-]|[_ ?]]%lookup_insert_Some; cbn; congruence.
Qed.

Lemma host_sid_stable_witness :
  host_sid (Meeting (Some "H") [Some "P1"; Some "P2"; Some "H"])
  = host_sid (Meeting (Some "H") [Some "P1"; Some "P2"]).
Proof.
  apply (host_sid_stable allow_H scenario_B (Some "ABC")).
  - intros sid d [=].
  - vm_compute. reflexivity.
  - vm_compute. reflexivity.
Defined.

Lemma hosts_connected_step w e : hosts_connected w → hosts_connected (step w e).
Proof.
  unfold hosts_connected. intros Hinv.
  destruct (step_meetings_change w e) as [|c|c m x Hm|sid d _|c m x Had].
  - done.
  - by apply map_Forall_delete.
  - apply map_Forall_insert_2; [|done]. cbn.
    apply (map_Forall_lookup_1 _ _ _ _ Hinv Hm).
  - apply map_Forall_insert_2; [|done]. cbn. eauto.
  - apply admitted_Some in Had as [Hm _].
    apply map_Forall_insert_2; [|done]. cbn.
    apply (map_Forall_lookup_1 _ _ _ _ Hinv Hm).
Qed.

Lemma along_True w es : along (λ _ _, True) w es.
Proof. revert w. induction es as [|e es IH]; intros w; cbn; auto. Qed.

(** X8: in every state reached from the empty registries, whatever the
    events and their payloads, every stored meeting has a connection
    identifier as [host_sid], never [None]; so the [join_request_received]
    of [request_join] is always addressed to one connection. *)
Theorem hosts_connected_reachable es :
  hosts_connected (exec_all es empty_world).
Proof.
  apply (exec_all_preserves hosts_connected (λ _ _, True)).
  - intros w e Hw _. by apply hosts_connected_step.
  - intros c m Hm. cbn in Hm. by rewrite lookup_empty in Hm.
  - apply along_True.
Qed.

(** ** Host controls *)

(** X9: a host that kicks a target which its meeting does not list (a
    stale or absent [target_sid]) changes nothing and emits nothing; no
    [kicked_by_host] is sent. *)
Theorem kick_unlisted_target sid d w u m :
  active_users w !! Some sid = Some u →
  role u = Host →
  meetings w !! meeting_code u = Some m →
  data_get d "target_sid" ∉ participants m →
  no_op (kick_participant sid d w) w.
Proof.
  intros Hu Hrole Hm Ht. rewrite kick_participant_eq, Hu. cbn zeta.
  rewrite decide_True by done. rewrite Hm. by rewrite decide_False by done.
Qed.

Lemma kick_unlisted_target_witness :
  no_op (kick_participant "H" (mk_data [("target_sid", "Z")]) scenario_B)
        scenario_B.
Proof.
  apply (kick_unlisted_target "H" (mk_data [("target_sid", "Z")]) scenario_B
           (User (Some "h") (Some "ABC") Host)
           (Meeting (Some "H") [Some "P1"; Some "P2"]));
    try (vm_compute; reflexivity).
  vm_compute. intros Hin. repeat (apply elem_of_cons in Hin as [[=]|Hin]).
  by apply elem_of_nil in Hin.
Defined.

(** X10: [end_meeting] by a connection registered as host returns normally,
    broadcasts [meeting_ended] to the room of its meeting code, leaves that
    code without a meeting and does not touch the Connection Registry, the
    host's own entry included.  The entry keeps its role, so a second
    [end_meeting] broadcasts [meeting_ended] again, with both registries
    unchanged. *)
Theorem end_meeting_by_host sid d w u :
  active_users w !! Some sid = Some u →
  role u = Host →
  let r := end_meeting sid d w in
  out r = Returned () ∧
  emitted r = [Emit "meeting_ended" None (Room (meeting_code u) None)] ∧
  meetings (final r) = delete (meeting_code u) (meetings w) ∧
  active_users (final r) = active_users w ∧
  end_meeting sid d (final r) =
    Run (Returned ()) (final r)
        [Emit "meeting_ended" None (Room (meeting_code u) None)].
Proof.
  intros Hu Hrole. cbn zeta.
  assert (end_meeting sid d w =
          Run (Returned ())
              (World (delete (meeting_code u) (meetings w)) (active_users w))
              [Emit "meeting_ended" None (Room (meeting_code u) None)]) as ->.
  { rewrite end_meeting_eq, Hu, decide_True by done.
    destruct (meetings w !! meeting_code u) eqn:Hm; [done|].
    rewrite delete_id by done. by destruct w. }
  cbn. repeat split.
  by rewrite end_meeting_eq; cbn; rewrite Hu, decide_True, lookup_delete_eq.
Qed.

Lemma end_meeting_by_host_witness :
  let r := end_meeting "H" ∅ scenario_B in
  out r = Returned () ∧
  emitted r = [Emit "meeting_ended" None (Room (Some "ABC") None)] ∧
  meetings (final r) = delete (Some "ABC") (meetings scenario_B) ∧
  active_users (final r) = active_users scenario_B ∧
  end_meeting "H" ∅ (final r) =
    Run (Returned ()) (final r)
        [Emit "meeting_ended" None (Room (Some "ABC") None)].
Proof.
  apply (end_meeting_by_host "H" ∅ scenario_B
           (User (Some "h") (Some "ABC") Host)); vm_compute; reflexivity.
Defined.

(** ** Admission *)

(** X11: [request_join] with the code of a stored meeting returns normally
    and keeps no trace of the request: both registries are unchanged.  It
    emits [join_request_received], carrying the requester's sid and
    [user_info], to the meeting's host, and then [waiting_for_host] to the
    requester. *)
Theorem request_join_known_code sid d w m :
  meetings w !! data_get d "meeting_code" = Some m →
  request_join sid d w =
  Run (Returned ()) w
      [Emit "join_request_received"
            (Some [("sid", Some sid); ("user_info", data_get d "user_info")])
            (To (host_sid m));
       Emit "waiting_for_host"
            (Some [("message", Some "Waiting for host to let you in...")])
            (To (Some sid))].
Proof. intros Hm. by rewrite request_join_eq, Hm. Qed.

Lemma request_join_known_code_witness :
  request_join "P3" (mk_data [("meeting_code", "ABC"); ("user_info", "Pat")])
               scenario_B =
  Run (Returned ()) scenario_B
      [Emit "join_request_received"
            (Some [("sid", Some "P3"); ("user_info", Some "Pat")])
            (To (Some "H"));
       Emit "waiting_for_host"
            (Some [("message", Some "Waiting for host to let you in...")])
            (To (Some "P3"))].
Proof.
  apply (request_join_known_code "P3"
           (mk_data [("meeting_code", "ABC"); ("user_info", "Pat")])
           scenario_B (Meeting (Some "H") [Some "P1"; Some "P2"])).
  vm_compute. reflexivity.
Defined.

(** X12: [host_response] with action ["allow"], sent by a connection whose
    registry entry names a stored meeting, returns normally; it calls
    [enter_room] for the requester, appends the requester at the end of the
    participants list, replaces whatever registry entry the requester had by
    a participant entry for that meeting, and emits [join_accepted] to the
    requester and [participant_joined] to the room with the requester
    skipped. *)
Theorem host_response_allow sid d w m :
  data_get d "action" = Some "allow" →
  meetings w !! sender_code w sid = Some m →
  let x := data_get d "requester_sid" in
  let c := sender_code w sid in
  host_response sid d w =
  Run (Returned ())
      (World (<[c := Meeting (host_sid m) (participants m ++ [x])]> (meetings w))
             (<[x := User (data_get d "user_id") c Participant]>
                (active_users w)))
      [EnterRoom x c;
       Emit "join_accepted" (Some [("meeting_code", c)]) (To x);
       Emit "participant_joined" (Some [("sid", x)]) (Room c x)].
Proof.
  intros Ha Hm. cbn zeta. rewrite host_response_eq. cbn zeta.
  by rewrite decide_True, Hm by done.
Qed.

Lemma host_response_allow_witness :
  host_response "H"
    (mk_data [("requester_sid", "P3"); ("action", "allow")]) scenario_B =
  Run (Returned ())
      (World (<[Some "ABC" :=
                  Meeting (Some "H") [Some "P1"; Some "P2"; Some "P3"]]>
                (meetings scenario_B))
             (<[Some "P3" := User None (Some "ABC") Participant]>
                (active_users scenario_B)))
      [EnterRoom (Some "P3") (Some "ABC");
       Emit "join_accepted" (Some [("meeting_code", Some "ABC")])
            (To (Some "P3"));
       Emit "participant_joined" (Some [("sid", Some "P3")])
            (Room (Some "ABC") (Some "P3"))].
Proof.
  apply (host_response_allow "H"
           (mk_data [("requester_sid", "P3"); ("action", "allow")])
           scenario_B (Meeting (Some "H") [Some "P1"; Some "P2"]));
    vm_compute; reflexivity.
Defined.

(** ** How the handlers compose *)

Lemma remove_first_snoc x l : x ∉ l → remove_first x (l ++ [x]) = l.
Proof.
  induction l as [|y l IH]; cbn; intros Hx.
  - by rewrite decide_True.
  - apply not_elem_of_cons in Hx as [Hne Hx].
    rewrite decide_False by done. by rewrite IH.
Qed.

(** X13: admission and departure cancel out.  When the requester has no
    registry entry and is not listed in the sender's meeting, an allowed
    [host_response] followed by the requester's [disconnect] leaves both
    registries exactly as they were before the admission; the disconnect
    returns normally and broadcasts one [participant_left]. *)
Theorem allow_then_disconnect sid d x w m :
  data_get d "action" = Some "allow" →
  data_get d "requester_sid" = Some x →
  meetings w !! sender_code w sid = Some m →
  Some x ∉ participants m →
  active_users w !! Some x = None →
  disconnect x (final (host_response sid d w)) =
  Run (Returned ()) w
      [Emit "participant_left" (Some [("sid", Some x)])
            (Room (sender_code w sid) None)].
Proof.
  intros Ha Hx Hm Hnew Hfree.
  rewrite host_response_eq. cbn zeta. rewrite decide_True, Hm, Hx by done.
  rewrite disconnect_eq. cbn.
  rewrite !lookup_insert_eq. cbn.
  rewrite decide_True by (apply elem_of_app; right; constructor).
  rewrite insert_insert_eq, remove_first_snoc, delete_insert_id by done.
  destruct m as [h ps]. cbn. rewrite insert_id by done. by destruct w.
Qed.

Lemma allow_then_disconnect_witness :
  disconnect "P3"
    (final (host_response "H"
              (mk_data [("requester_sid", "P3"); ("action", "allow")])
              scenario_B)) =
  Run (Returned ()) scenario_B
      [Emit "participant_left" (Some [("sid", Some "P3")])
            (Room (Some "ABC") None)].
Proof.
  apply (allow_then_disconnect "H"
           (mk_data [("requester_sid", "P3"); ("action", "allow")])
           "P3" scenario_B (Meeting (Some "H") [Some "P1"; Some "P2"]));
    try (vm_compute; reflexivity).
  vm_compute. intros Hin. repeat (apply elem_of_cons in Hin as [[=]|Hin]).
  by apply elem_of_nil in Hin.
Defined.

(** X14: admission and kick do not cancel out.  When a host allows a
    requester that is not listed yet and is not the host itself, and then
    kicks it, the Meeting Registry is back to what it was, but the
    requester keeps the participant entry the admission gave it. *)
Theorem allow_then_kick sid d d' w u m :
  active_users w !! Some sid = Some u →
  role u = Host →
  meetings w !! meeting_code u = Some m →
  data_get d "action" = Some "allow" →
  data_get d "requester_sid" ≠ Some sid →
  data_get d "requester_sid" ∉ participants m →
  data_get d' "target_sid" = data_get d "requester_sid" →
  let x := data_get d "requester_sid" in
  kick_participant sid d' (final (host_response sid d w)) =
  Run (Returned ())
      (World (meetings w)
             (<[x := User (data_get d "user_id") (meeting_code u) Participant]>
                (active_users w)))
      [Emit "kicked_by_host" None (To x);
       LeaveRoom x (meeting_code u);
       Emit "participant_left" (Some [("sid", x)])
            (Room (meeting_code u) None)].
Proof.
  intros Hu Hrole Hm Ha Hne Hnew Ht. cbn zeta.
  rewrite host_response_eq. unfold sender_code. rewrite Hu. cbn.
  rewrite decide_True, Hm by done.
  rewrite kick_participant_eq. cbn.
  rewrite lookup_insert_ne, Hu by done.
  rewrite decide_True, lookup_insert_eq by done. cbn.
  rewrite Ht, decide_True by (apply elem_of_app; right; constructor).
  rewrite insert_insert_eq, remove_first_snoc by done.
  destruct m as [h ps]. cbn. by rewrite insert_id.
Qed.

Lemma allow_then_kick_witness :
  kick_participant "H" (mk_data [("target_sid", "P3")])
    (final (host_response "H"
              (mk_data [("requester_sid", "P3"); ("action", "allow")])
              scenario_B)) =
  Run (Returned ())
      (World (meetings scenario_B)
             (<[Some "P3" := User None (Some "ABC") Participant]>
                (active_users scenario_B)))
      [Emit "kicked_by_host" None (To (Some "P3"));
       LeaveRoom (Some "P3") (Some "ABC");
       Emit "participant_left" (Some [("sid", Some "P3")])
            (Room (Some "ABC") None)].
Proof.
  apply (allow_then_kick "H"
           (mk_data [("requester_sid", "P3"); ("action", "allow")])
           (mk_data [("target_sid", "P3")]) scenario_B
           (User (Some "h") (Some "ABC") Host)
           (Meeting (Some "H") [Some "P1"; Some "P2"]));
    try (vm_compute; reflexivity).
  - vm_compute. discriminate.
  - vm_compute. intros Hin. repeat (apply elem_of_cons in Hin as [[=]|Hin]).
    by apply elem_of_nil in Hin.
Defined.

(** ** Participants leaving *)

(** X15: when a connection registered as participant of a stored meeting
    that lists it disconnects, the handler returns normally, drops the first
    occurrence of the connection from the participants list, deletes the
    connection's registry entry and broadcasts one [participant_left] to
    the meeting's room. *)
Theorem participant_disconnect_listed sid w u m :
  active_users w !! Some sid = Some u →
  role u = Participant →
  meetings w !! meeting_code u = Some m →
  Some sid ∈ participants m →
  disconnect sid w =
  Run (Returned ())
      (World (<[meeting_code u :=
                  Meeting (host_sid m)
                    (remove_first (Some sid) (participants m))]>
                (meetings w))
             (delete (Some sid) (active_users w)))
      [Emit "participant_left" (Some [("sid", Some sid)])
            (Room (meeting_code u) None)].
Proof.
  intros Hu Hrole Hm Hin. rewrite disconnect_eq, Hu. cbn zeta.
  by rewrite Hm, Hrole, decide_True.
Qed.

Lemma participant_disconnect_listed_witness :
  disconnect "P1" scenario_B =
  Run (Returned ())
      (World (<[Some "ABC" := Meeting (Some "H") [Some "P2"]]>
                (meetings scenario_B))
             (delete (Some "P1") (active_users scenario_B)))
      [Emit "participant_left" (Some [("sid", Some "P1")])
            (Room (Some "ABC") None)].
Proof.
  apply (participant_disconnect_listed "P1" scenario_B
           (User None (Some "ABC") Participant)
           (Meeting (Some "H") [Some "P1"; Some "P2"]));
    vm_compute; first [reflexivity | constructor].
Defined.

(** X16: when a connection registered as participant of a stored meeting
    that does not list it disconnects (it was kicked before, say), the
    Meeting Registry is unchanged, the connection's registry entry is
    deleted, and [participant_left] is broadcast to the meeting's room all
    the same. *)
Theorem participant_disconnect_unlisted sid w u m :
  active_users w !! Some sid = Some u →
  role u = Participant →
  meetings w !! meeting_code u = Some m →
  Some sid ∉ participants m →
  disconnect sid w =
  Run (Returned ())
      (World (meetings w) (delete (Some sid) (active_users w)))
      [Emit "participant_left" (Some [("sid", Some sid)])
            (Room (meeting_code u) None)].
Proof.
  intros Hu Hrole Hm Hout. rewrite disconnect_eq, Hu. cbn zeta.
  by rewrite Hm, Hrole, decide_False.
Qed.

Lemma participant_disconnect_unlisted_witness :
  let w := final (kick_participant "H" (mk_data [("target_sid", "P1")])
                    scenario_B) in
  disconnect "P1" w =
  Run (Returned ())
      (World (meetings w) (delete (Some "P1") (active_users w)))
      [Emit "participant_left" (Some [("sid", Some "P1")])
            (Room (Some "ABC") None)].
Proof.
  apply (participant_disconnect_unlisted "P1"
           (final (kick_participant "H" (mk_data [("target_sid", "P1")])
                     scenario_B))
           (User None (Some "ABC") Participant)
           (Meeting (Some "H") [Some "P2"]));
    try (vm_compute; reflexivity).
  vm_compute. intros Hin. repeat (apply elem_of_cons in Hin as [[=]|Hin]).
  by apply elem_of_nil in Hin.
Defined.

(** X17: after the host of a meeting has disconnected, the disconnect of a
    connection whose registry entry names that meeting emits nothing: it
    returns normally and only deletes the connection's own entry. *)
Theorem disconnect_after_host h p w uh up m :
  active_users w !! Some h = Some uh →
  role uh = Host →
  meetings w !! meeting_code uh = Some m →
  active_users w !! Some p = Some up →
  meeting_code up = meeting_code uh →
  p ≠ h →
  disconnect p (final (disconnect h w)) =
  Run (Returned ())
      (World (delete (meeting_code uh) (meetings w))
             (delete (Some p) (delete (Some h) (active_users w))))
      [].
Proof.
  intros Hh Hrole Hm Hp Hcode Hne.
  rewrite (disconnect_eq h), Hh. cbn zeta. rewrite Hm, Hrole.
  rewrite disconnect_eq. cbn.
  rewrite lookup_delete_ne, Hp by congruence.
  by rewrite Hcode, lookup_delete_eq.
Qed.

Lemma disconnect_after_host_witness :
  disconnect "P2" (final (disconnect "H" scenario_B)) =
  Run (Returned ())
      (World (delete (Some "ABC") (meetings scenario_B))
             (delete (Some "P2") (delete (Some "H") (active_users scenario_B))))
      [].
Proof.
  apply (disconnect_after_host "H" "P2" scenario_B
           (User (Some "h") (Some "ABC") Host)
           (User None (Some "ABC") Participant)
           (Meeting (Some "H") [Some "P1"; Some "P2"]));
    try (vm_compute; reflexivity).
  discriminate.
Defined.

(** ** Who holds the host role *)

(** X18: host authority follows the sender's registry entry, not the
    meeting's [host_sid].  When a connection registered as host of a code
    sees another connection start a meeting under the same code, the new
    meeting has the other connection as host, yet an [end_meeting] from the
    first connection still passes the host check: it broadcasts
    [meeting_ended] and deletes the new meeting. *)
Theorem former_host_ends_new_meeting h g d d' w u :
  active_users w !! Some h = Some u →
  role u = Host →
  data_get d "meeting_code" = meeting_code u →
  g ≠ h →
  let w1 := step w (EvStartMeeting g d) in
  let r := end_meeting h d' w1 in
  meetings w1 !! meeting_code u = Some (Meeting (Some g) []) ∧
  out r = Returned () ∧
  emitted r = [Emit "meeting_ended" None (Room (meeting_code u) None)] ∧
  meetings (final r) !! meeting_code u = None.
Proof.
  intros Hu Hrole Hd Hne. cbn zeta. unfold step. cbn [handle].
  rewrite start_meeting_eq. cbn. rewrite Hd.
  split; [apply lookup_insert_eq|].
  rewrite end_meeting_eq. cbn.
  rewrite lookup_insert_ne, Hu by congruence.
  rewrite decide_True, lookup_insert_eq by done. cbn.
  repeat split. apply lookup_delete_eq.
Qed.

Lemma former_host_ends_new_meeting_witness :
  let w1 := step scenario_B
              (EvStartMeeting "G" (mk_data [("meeting_code", "ABC")])) in
  let r := end_meeting "H" ∅ w1 in
  meetings w1 !! Some "ABC" = Some (Meeting (Some "G") []) ∧
  out r = Returned () ∧
  emitted r = [Emit "meeting_ended" None (Room (Some "ABC") None)] ∧
  meetings (final r) !! Some "ABC" = None.
Proof.
  apply (former_host_ends_new_meeting "H" "G"
           (mk_data [("meeting_code", "ABC")]) ∅ scenario_B
           (User (Some "h") (Some "ABC") Host));
    try (vm_compute; reflexivity).
  discriminate.
Defined.

(** X19: a host that allows itself gives up the host role.  When the sender
    of an allowed [host_response] names itself as requester and its
    registry entry names a stored meeting, its entry becomes a participant
    entry; its later [kick_participant] and [end_meeting] are no-ops, while
    the meeting stays stored with it as [host_sid]. *)
Theorem self_admission_demotes sid d d1 d2 w m :
  data_get d "action" = Some "allow" →
  data_get d "requester_sid" = Some sid →
  meetings w !! sender_code w sid = Some m →
  let w1 := final (host_response sid d w) in
  active_users w1 !! Some sid =
    Some (User (data_get d "user_id") (sender_code w sid) Participant) ∧
  meetings w1 !! sender_code w sid =
    Some (Meeting (host_sid m) (participants m ++ [Some sid])) ∧
  no_op (kick_participant sid d1 w1) w1 ∧
  no_op (end_meeting sid d2 w1) w1.
Proof.
  intros Ha Hx Hm. cbn zeta.
  rewrite host_response_eq. cbn zeta. rewrite decide_True, Hm, Hx by done.
  cbn. rewrite !lookup_insert_eq.
  split; [done|]. split; [done|].
  rewrite kick_participant_eq, end_meeting_eq. cbn.
  by rewrite lookup_insert_eq.
Qed.

Lemma self_admission_demotes_witness :
  let w1 := final (handle allow_H scenario_B) in
  active_users w1 !! Some "H" = Some (User None (Some "ABC") Participant) ∧
  meetings w1 !! Some "ABC" =
    Some (Meeting (Some "H") ([Some "P1"; Some "P2"] ++ [Some "H"])) ∧
  no_op (kick_participant "H" (mk_data [("target_sid", "P1")]) w1) w1 ∧
  no_op (end_meeting "H" ∅ w1) w1.
Proof.
  apply (self_admission_demotes "H"
           (mk_data [("requester_sid", "H"); ("action", "allow")])
           (mk_data [("target_sid", "P1")]) ∅ scenario_B
           (Meeting (Some "H") [Some "P1"; Some "P2"]));
    vm_compute; reflexivity.
Defined.
